(** * gofer-cli: service lifecycle, polling cache and HTTP query agent

  A shallow embedding of [pkg/prices/cache.go] and [pkg/agent/agent.go].

  Both components implement the supervisor [Service] interface
  ([Start]/[Wait]).  Their methods are embedded as functions over an
  explicit process state: the component's struct, the goroutines that
  [go] statements have spawned, the set of cancelled contexts and what
  waiters have received from the completion channel.  Goroutines advance
  through an executable [step] function, one blocking point at a time,
  driven by a schedule of labels chosen by the Go scheduler and by the
  environment (context cancellation, ticker events, HTTP requests).

  The collaborators from oracle-suite (price provider, price hook,
  marshaller) and [encoding/json] are interfaces: type classes with a
  hidden state whose methods may answer anything. *)

From Stdlib Require Import ZArith Ascii.
From stdpp Require Import base option list strings gmap.

Set Warnings "-register-all".

(** ** Go values *)

(** The line feed that [fmt.Fprintln] appends. *)
Definition newline : string := String (ascii_of_nat 10) EmptyString.

(** The double quote of a Go string literal such as [`{"error":".."}`]. *)
Definition dquote : string := String (ascii_of_nat 34) EmptyString.

Definition quoted (s : string) : string := dquote +:+ s +:+ dquote.

(** An [error] value is carried by its message ([errors.New msg]); the
  [nil] error is [None] of [option error]. *)
Definition error : Type := string.

(** A [context.Context] is known by its identity; [nil] is [None] of
  [option Context].  Whether a context is done is a fact of the process
  state (the set of cancelled contexts), shared by every holder. *)
Definition Context : Type := nat.

(** [float64], carried by its IEEE-754 bit pattern: the code only moves
  these values around. *)
Definition float64 : Type := Z.

Module time.
(** [time.Time]: an instant and the location it is presented in. *)
Record Time := { instant : Z; loc : string }.
Definition UTC : string := "UTC".
Definition In (t : Time) (l : string) : Time :=
  {| instant := instant t; loc := l |}.
End time.

(** ** Unbuffered [chan error] *)
Module chan.
(** [sent] lists the values handed over to receivers by a send, oldest
    first.  A receive on a closed channel hands over nothing: it
    returns the zero value with [ok = false]. *)
Record t := { closed : bool; sent : list (option error) }.

Definition make : t := {| closed := false; sent := [] |}.

(** [close(c)]; closing a closed channel panics ([None]). *)
Definition close (c : t) : option t :=
  if closed c then None else Some {| closed := true; sent := sent c |}.

(** A send that met a receiver. *)
Definition hand_over (v : option error) (c : t) : t :=
  {| closed := closed c; sent := sent c ++ [v] |}.
End chan.

(** What a waiter got from one receive, [v, ok := <-ch]. *)
Definition Received : Type := (option error * bool)%type.

(** ** package provider (oracle-suite) *)
Module provider.
Record Pair := { Base : string; Quote : string }.

#[global] Instance Pair_eq_dec : EqDecision Pair.
Proof. solve_decision. Defined.

#[global] Program Instance Pair_countable : Countable Pair :=
  inj_countable' (fun p => (Base p, Quote p))
                 (fun bq => {| Base := bq.1; Quote := bq.2 |}) _.
Next Obligation. by intros []. Qed.

(** Modelled from the spec: [Pair.Empty] is declared in oracle-suite;
    "a pair is empty if both symbols are unset". *)
Definition Pair_Empty (p : Pair) : bool :=
  bool_decide (Base p = "" ∧ Quote p = "").

(** Modelled from the spec: [Pair.String] is declared in oracle-suite;
    "string form BASE/QUOTE". *)
Definition Pair_String (p : Pair) : string := Base p +:+ "/" +:+ Quote p.

(** [provider.Price], the tick: the fields [agent.go] and [cache.go]
    read. *)
Inductive Price := mkPrice {
  pType : string;
  pPair : Pair;
  pPrice : float64;
  pBid : float64;
  pAsk : float64;
  pVolume24h : float64;
  pTime : time.Time;
  pParameters : gmap string string;
  pPrices : list Price;
  pError : string
}.

(** The [Provider] interface.  An implementation has a state of its
    own; a call returns [(value, error)], here [Ok value] or
    [Error err].  [NewPairs] is the package's parser of "BASE/QUOTE"
    strings. *)
Class Provider := {
  provider_state : Type;
  provider_Price :
    Pair → provider_state → result Price error * provider_state;
  provider_Prices :
    list Pair → provider_state →
    result (gmap Pair Price) error * provider_state;
  NewPairs : list string → result (list Pair) error
}.

(** The [PriceHook] interface: [Check] reads the mapping and answers
    [nil] or a validation failure. *)
Class PriceHook := {
  hook_state : Type;
  hook_Check : gmap Pair Price → hook_state → option error * hook_state
}.
End provider.

Import provider.

(** ** package marshal (oracle-suite) *)
Module marshal.
(** What the code hands to [Marshaller.Write]: a price, or the error
    of a failed write. *)
Inductive Item := ItemPrice (p : Price) | ItemError (e : error).

(** The [Marshaller] interface.  [Write] and [Flush] answer the bytes
    they put on the writer they were given, and an error or [nil]. *)
Class Marshaller := {
  marshaller_state : Type;
  marshaller_Write :
    Item → marshaller_state → (string * option error) * marshaller_state;
  marshaller_Flush :
    marshaller_state → (string * option error) * marshaller_state
}.
End marshal.

(** ** package log (oracle-suite) *)
Module log.
Inductive Level := Debug | Info | Warn | Error.

Inductive Arg :=
| AStr (s : string)
| AErr (e : error)
| APair (p : Pair)
| APrices (m : gmap Pair Price).

(** One emitted entry: the fields bound by [WithField]/[WithError],
    the format string and its arguments. *)
Record Entry := {
  level : Level;
  fields : list (string * Arg);
  format : string;
  args : list Arg
}.

(** A logger: the fields bound to it and what it has emitted. *)
Record Logger := { bound : list (string * Arg); entries : list Entry }.

Definition null : Logger := {| bound := []; entries := [] |}.

(** [l.WithField(k, v)] kept as the logger of a struct. *)
Definition WithField (k : string) (v : Arg) (l : Logger) : Logger :=
  {| bound := bound l ++ [(k, v)]; entries := entries l |}.

(** [l.WithField(..)...Level(format, args...)]: [extra] are the fields
    bound on the way, for this entry only. *)
Definition emit (lv : Level) (extra : list (string * Arg))
    (fmt : string) (a : list Arg) (l : Logger) : Logger :=
  {| bound := bound l;
     entries := entries l ++
       [{| level := lv; fields := bound l ++ extra;
           format := fmt; args := a |}] |}.
End log.

(** ** Collaborator objects

    A collaborator held by a component: its hidden state and the journal
    of the calls made on it, each with what it answered. *)
Inductive ProviderCall :=
| CallPrice (pair : Pair) (r : result Price error)
| CallPrices (pairs : list Pair) (r : result (gmap Pair Price) error).

Record ProviderObj `{Provider} := {
  pstate : provider_state;
  pcalls : list ProviderCall
}.

Definition Provider_Price `{Provider} (pair : Pair) (o : ProviderObj)
  : result Price error * ProviderObj :=
  let '(r, st) := provider_Price pair (pstate o) in
  (r, {| pstate := st; pcalls := pcalls o ++ [CallPrice pair r] |}).

Definition Provider_Prices `{Provider} (pairs : list Pair) (o : ProviderObj)
  : result (gmap Pair Price) error * ProviderObj :=
  let '(r, st) := provider_Prices pairs (pstate o) in
  (r, {| pstate := st; pcalls := pcalls o ++ [CallPrices pairs r] |}).

Record HookObj `{PriceHook} := {
  hstate : hook_state;
  hcalls : list (gmap Pair Price * option error)
}.

Definition Hook_Check `{PriceHook} (prices : gmap Pair Price) (o : HookObj)
  : option error * HookObj :=
  let '(r, st) := hook_Check prices (hstate o) in
  (r, {| hstate := st; hcalls := hcalls o ++ [(prices, r)] |}).

Inductive MarshallerCall :=
| CallWrite (i : marshal.Item) (r : option error)
| CallFlush (r : option error).

Record MarshallerObj `{marshal.Marshaller} := {
  mstate : marshal.marshaller_state;
  mcalls : list MarshallerCall
}.

Definition Marshaller_Write `{marshal.Marshaller} (i : marshal.Item)
    (o : MarshallerObj) : (string * option error) * MarshallerObj :=
  let '((out, r), st) := marshal.marshaller_Write i (mstate o) in
  ((out, r), {| mstate := st; mcalls := mcalls o ++ [CallWrite i r] |}).

Definition Marshaller_Flush `{marshal.Marshaller} (o : MarshallerObj)
  : (string * option error) * MarshallerObj :=
  let '((out, r), st) := marshal.marshaller_Flush (mstate o) in
  ((out, r), {| mstate := st; mcalls := mcalls o ++ [CallFlush r] |}).

(** ** package timeutil and package median (oracle-suite) *)
Module timeutil.
(** A [*Ticker]: which context it was started with.  Its tick events
    come from the environment. *)
Record Ticker := { started : option Context }.
Definition Start (ctx : Context) (t : Ticker) : Ticker :=
  {| started := Some ctx |}.
End timeutil.

Module median.
Record Price := { Wat : string; Val : float64; Age : time.Time }.
Definition SetFloat64Price (v : float64) (p : Price) : Price :=
  {| Wat := Wat p; Val := v; Age := Age p |}.
End median.

(** What a call of [Start] came to: it returned an error or [nil], or
    it panicked. *)
Inductive StartResult :=
| Returned (err : option error)
| Panicked (msg : string).

(** * package prices: the polling cache ([pkg/prices/cache.go]) *)
Module prices.
Section Cache.
Context `{Provider}.

Definition LoggerTag : string := "PRICE_CACHE".

(** The [Cache] struct.  [prices] is a Go map that may be [nil]
    ([None]).  The ticker is the one of the configuration;
    [Config.Interval] is taken to be set. *)
Record Cache := {
  ctx : option Context;
  waitCh : chan.t;
  interval : timeutil.Ticker;
  priceProvider : ProviderObj;
  pairs : list Pair;
  log : log.Logger;
  prices : option (gmap Pair Price)
}.

Record Config := {
  Pairs : list string;
  PriceProvider : option ProviderObj;
  Interval : timeutil.Ticker;
  Logger : option log.Logger
}.

(** [New]: struct fields that the literal leaves out get their zero
    value, so [ctx] and [prices] are [nil]. *)
Definition New (cfg : Config) : result Cache error :=
  match PriceProvider cfg with
  | None => Error "price provider must not be nil"
  | Some prov =>
    let logger := default log.null (Logger cfg) in
    match NewPairs (Pairs cfg) with
    | Error err => Error err
    | Ok ps =>
      Ok {| ctx := None;
            waitCh := chan.make;
            interval := Interval cfg;
            priceProvider := prov;
            pairs := ps;
            log := log.WithField "tag" (log.AStr LoggerTag) logger;
            prices := None |}
    end
  end.

Definition set_ctx (c : option Context) (g : Cache) : Cache :=
  {| ctx := c; waitCh := waitCh g; interval := interval g;
     priceProvider := priceProvider g; pairs := pairs g; log := log g;
     prices := prices g |}.

Definition set_waitCh (ch : chan.t) (g : Cache) : Cache :=
  {| ctx := ctx g; waitCh := ch; interval := interval g;
     priceProvider := priceProvider g; pairs := pairs g; log := log g;
     prices := prices g |}.

Definition set_interval (t : timeutil.Ticker) (g : Cache) : Cache :=
  {| ctx := ctx g; waitCh := waitCh g; interval := t;
     priceProvider := priceProvider g; pairs := pairs g; log := log g;
     prices := prices g |}.

Definition set_priceProvider (o : ProviderObj) (g : Cache) : Cache :=
  {| ctx := ctx g; waitCh := waitCh g; interval := interval g;
     priceProvider := o; pairs := pairs g; log := log g;
     prices := prices g |}.

Definition set_log (l : log.Logger) (g : Cache) : Cache :=
  {| ctx := ctx g; waitCh := waitCh g; interval := interval g;
     priceProvider := priceProvider g; pairs := pairs g; log := l;
     prices := prices g |}.

(** ** The process around a cache *)

(** A goroutine of the cache, parked at its blocking point: the
    [select] of [broadcasterRoutine], or the [<-g.ctx.Done()] of
    [contextCancelHandler]. *)
Inductive Goroutine := GBroadcaster | GCancelHandler | GExited.

Record Process := {
  self : Cache;
  goroutines : list Goroutine;
  cancelled : gset Context;
  received : list Received;
  panicked : option string
}.

Definition boot (g : Cache) : Process :=
  {| self := g; goroutines := []; cancelled := ∅; received := [];
     panicked := None |}.

Definition set_self (g : Cache) (p : Process) : Process :=
  {| self := g; goroutines := goroutines p; cancelled := cancelled p;
     received := received p; panicked := panicked p |}.

Definition set_goroutines (gs : list Goroutine) (p : Process) : Process :=
  {| self := self p; goroutines := gs; cancelled := cancelled p;
     received := received p; panicked := panicked p |}.

(** The [go] statement. *)
Definition go (r : Goroutine) (p : Process) : Process :=
  set_goroutines (goroutines p ++ [r]) p.

Definition cancel (c : Context) (p : Process) : Process :=
  {| self := self p; goroutines := goroutines p;
     cancelled := {[c]} ∪ cancelled p;
     received := received p; panicked := panicked p |}.

Definition receive (r : Received) (p : Process) : Process :=
  {| self := self p; goroutines := goroutines p; cancelled := cancelled p;
     received := received p ++ [r]; panicked := panicked p |}.

Definition panic (msg : string) (p : Process) : Process :=
  {| self := self p; goroutines := goroutines p; cancelled := cancelled p;
     received := received p; panicked := Some msg |}.

(** ** Methods *)

(** [Start] implements the supervisor.Service interface. *)
Definition Start (ctx0 : option Context) (p : Process)
  : Process * StartResult :=
  let g := self p in
  match ctx g with
  | Some _ => (p, Returned (Some "service can be started only once"))
  | None =>
    match ctx0 with
    | None => (p, Returned (Some "context must not be nil"))
    | Some c =>
      let g := set_log (log.emit log.Debug [] "Starting" [] (log g)) g in
      let g := set_ctx (Some c) g in
      let g := set_interval (timeutil.Start c (interval g)) g in
      let p := set_self g p in
      let p := go GBroadcaster p in
      let p := go GCancelHandler p in
      (p, Returned None)
    end
  end.

(** [Wait] implements the supervisor.Service interface. *)
Definition Wait (g : Cache) : chan.t := waitCh g.

(** [g.prices[pair]]: reading a [nil] map finds nothing. *)
Definition snapshot (g : Cache) (pr : Pair) : option Price :=
  m ← prices g; m !! pr.

(** [update]: fetch the tick of one pair.  The [median.Price] it builds
    is a local that nothing reads afterwards. *)
Definition update (pair : Pair) (g : Cache) : option error * Cache :=
  let '(r, prov) := Provider_Price pair (priceProvider g) in
  let g := set_priceProvider prov g in
  match r with
  | Error err => (Some err, g)
  | Ok tick =>
    if decide (pError tick ≠ "") then (Some (pError tick), g)
    else
      let price := {| median.Wat := Base pair +:+ Quote pair;
                      median.Val := 0%Z;
                      median.Age := pTime tick |} in
      let price := median.SetFloat64Price (pPrice tick) price in
      (None, g)
  end.

(** A failed fetch, in the words of the specification: the provider
    call fails, or the returned tick carries a non-empty error marker. *)
Definition fetch_failure (r : result Price error) : option error :=
  match r with
  | Error err => Some err
  | Ok tick => if decide (pError tick = EmptyString) then None
               else Some (pError tick)
  end.

(** The log entry the specification asks of a cycle for one pair and
    what its fetch answered: a warning for a failed fetch, an
    informational entry for an update.  [l] is the cache's logger. *)
Definition cycle_entry (l : log.Logger) (pr : Pair)
    (r : result Price error) : log.Entry :=
  match fetch_failure r with
  | Some e =>
    {| log.level := log.Warn;
       log.fields := log.bound l ++
         [("assetPair", log.APair pr); ("error", log.AErr e)];
       log.format := "Unable to update price";
       log.args := [] |}
  | None =>
    {| log.level := log.Info;
       log.fields := log.bound l ++ [("assetPair", log.APair pr)];
       log.format := "Price update";
       log.args := [] |}
  end.

(** The body of [for _, pair := range g.pairs]. *)
Fixpoint range_pairs (ps : list Pair) (g : Cache) : Cache :=
  match ps with
  | [] => g
  | pr :: rest =>
    let '(err, g) := update pr g in
    match err with
    | Some e =>
      let l := log.emit log.Warn
                 [("assetPair", log.APair pr); ("error", log.AErr e)]
                 "Unable to update price" [] (log g) in
      range_pairs rest (set_log l g)
    | None =>
      let l := log.emit log.Info [("assetPair", log.APair pr)]
                 "Price update" [] (log g) in
      range_pairs rest (set_log l g)
    end
  end.

(** The case of the [select] that fired. *)
Inductive SelectCase := CtxDone | TickCh.

(** One round of the [for { select { ... } }] of [broadcasterRoutine];
    the flag says whether the routine goes round again ([true]) or
    returns. *)
Definition broadcasterRoutine (ev : SelectCase) (g : Cache)
  : Cache * bool :=
  match ev with
  | CtxDone => (g, false)
  | TickCh => (range_pairs (pairs g) g, true)
  end.

(** [contextCancelHandler] once [<-g.ctx.Done()] has returned: the
    deferred calls run last-in first-out, the log entry and then
    [close(g.waitCh)]. [None] is the panic of a second close. *)
Definition contextCancelHandler (g : Cache) : option Cache :=
  let g := set_log (log.emit log.Debug [] "Stopped" [] (log g)) g in
  match chan.close (waitCh g) with
  | Some ch => Some (set_waitCh ch g)
  | None => None
  end.

(** ** Scheduling *)

Inductive Label :=
| LStart (c : option Context)   (* somebody calls [Start] *)
| LCancel (c : Context)         (* a context gets cancelled *)
| LTick (i : nat)               (* goroutine [i] takes a tick *)
| LDone (i : nat)               (* goroutine [i] sees [ctx.Done()] *)
| LRecv.                        (* a waiter receives from [Wait()] *)

(** Is the stored context done? *)
Definition done (p : Process) : bool :=
  match ctx (self p) with
  | Some c => bool_decide (c ∈ cancelled p)
  | None => false
  end.

(** One scheduling step; [None] when the label cannot fire (the
    goroutine is blocked, has exited or does not exist, or the process
    has crashed). *)
Definition step (l : Label) (p : Process) : option Process :=
  match panicked p with
  | Some _ => None
  | None =>
    match l with
    | LStart c => Some (Start c p).1
    | LCancel c => Some (cancel c p)
    | LTick i =>
      match goroutines p !! i with
      | Some GBroadcaster =>
        let '(g, again) := broadcasterRoutine TickCh (self p) in
        let r := if again : bool then GBroadcaster else GExited in
        Some (set_self g (set_goroutines (<[i := r]> (goroutines p)) p))
      | _ => None
      end
    | LDone i =>
      if done p then
        match goroutines p !! i with
        | Some GBroadcaster =>
          let '(g, again) := broadcasterRoutine CtxDone (self p) in
          let r := if again : bool then GBroadcaster else GExited in
          Some (set_self g (set_goroutines (<[i := r]> (goroutines p)) p))
        | Some GCancelHandler =>
          match contextCancelHandler (self p) with
          | Some g =>
            Some (set_self g
                    (set_goroutines (<[i := GExited]> (goroutines p)) p))
          | None => Some (panic "close of closed channel" p)
          end
        | _ => None
        end
      else None
    | LRecv =>
      if chan.closed (Wait (self p)) then Some (receive (None, false) p)
      else None
    end
  end.

(** A schedule, run from left to right. *)
Fixpoint run (ls : list Label) (p : Process) : option Process :=
  match ls with
  | [] => Some p
  | l :: rest =>
    match step l p with
    | Some p' => run rest p'
    | None => None
    end
  end.

(** The shape of a started cache's process: the stored context, no
    crash, the two goroutines of [Start], and a completion channel that
    is untouched while the cancel handler waits and closed, with
    nothing sent, once it has run. *)
Definition running (c : Context) (p : Process) : Prop :=
  ctx (self p) = Some c ∧ panicked p = None ∧
  ∃ b w, goroutines p = [b; w] ∧
    (b = GBroadcaster ∨ b = GExited) ∧
    ((w = GCancelHandler ∧ waitCh (self p) = chan.make) ∨
     (w = GExited ∧
      waitCh (self p) = {| chan.closed := true; chan.sent := [] |})).

End Cache.
End prices.

(** * package net/http: what the agent uses of it *)
Module http.
Definition StatusOK : nat := 200.
Definition StatusBadRequest : nat := 400.
Definition StatusUnsupportedMediaType : nat := 415.

Definition ErrServerClosed : error := "http: Server closed".

(** [http.Header], a map from canonical keys to their values. *)
Definition Get (key : string) (h : gmap string (list string)) : string :=
  match h !! key with
  | Some (v :: _) => v
  | _ => ""
  end.

Definition Set_ (key v : string) (h : gmap string (list string))
  : gmap string (list string) :=
  <[key := [v]]> h.

Record Request := {
  Header : gmap string (list string);
  Body : string
}.

(** The [http.ResponseWriter] of one request: the status line once it
    is written, the header map and the body written so far. *)
Record ResponseWriter := {
  wroteHeader : option nat;
  header : gmap string (list string);
  body : string
}.

Definition newResponse : ResponseWriter :=
  {| wroteHeader := None; header := ∅; body := "" |}.

(** [w.WriteHeader(code)]; a second call is ignored. *)
Definition WriteHeader (code : nat) (w : ResponseWriter) : ResponseWriter :=
  match wroteHeader w with
  | Some _ => w
  | None => {| wroteHeader := Some code; header := header w;
               body := body w |}
  end.

(** [w.Write(data)]: the first write sends [200 OK] if no status was
    written before. *)
Definition Write (data : string) (w : ResponseWriter) : ResponseWriter :=
  let w := WriteHeader StatusOK w in
  {| wroteHeader := wroteHeader w; header := header w;
     body := body w +:+ data |}.

(** [http.Error(w, msg, code)]: plain-text headers, the status, and
    the message followed by a newline ([fmt.Fprintln]). *)
Definition Error_ (msg : string) (code : nat) (w : ResponseWriter)
  : ResponseWriter :=
  let h := Set_ "Content-Type" "text/plain; charset=utf-8" (header w) in
  let h := Set_ "X-Content-Type-Options" "nosniff" h in
  let w := {| wroteHeader := wroteHeader w; header := h;
              body := body w |} in
  let w := WriteHeader code w in
  Write (msg +:+ newline) w.

(** The status the client sees: [200 OK] if the handler wrote none. *)
Definition status (w : ResponseWriter) : nat :=
  default StatusOK (wroteHeader w).

(** The client sees status [code] and exactly the body [b]. *)
Definition answers (w : ResponseWriter) (code : nat) (b : string) : Prop :=
  status w = code ∧ body w = b.

(** An [*http.Server]; [shut] once [Close] was called. *)
Record Server := { Addr : string; shut : bool }.

Definition Close (srv : Server) : Server :=
  {| Addr := Addr srv; shut := true |}.
End http.

(** * package agent: the HTTP query agent ([pkg/agent/agent.go]) *)
Module agent.

Record pricesRequest := { Pairs : option (list provider.Pair) }.

Record priceRequest := { Pair : provider.Pair }.

Inductive jsonPrice := mkJsonPrice {
  jType : string;
  jBase : string;
  jQuote : string;
  jPrice : float64;
  jBid : float64;
  jAsk : float64;
  jVolume24h : float64;
  jTimestamp : time.Time;
  jParameters : gmap string string;
  jPrices : list jsonPrice;
  jError : string
}.

Fixpoint jsonPriceFromGoferPrice (t : Price) : jsonPrice :=
  match t with
  | mkPrice ty pr price bid ask vol tm params cs err =>
    {| jType := ty;
       jBase := Base pr;
       jQuote := Quote pr;
       jPrice := price;
       jBid := bid;
       jAsk := ask;
       jVolume24h := vol;
       jTimestamp := time.In tm time.UTC;
       jParameters := params;
       jPrices := map jsonPriceFromGoferPrice cs;
       jError := err |}
  end.

(** [encoding/json], as far as the handlers use it: decoding a request
    body into either request struct, and [json.Marshal] of a
    [jsonPrice]. *)
Class JSON := {
  Decode_priceRequest : string → result priceRequest error;
  Decode_pricesRequest : string → result pricesRequest error;
  Marshal : jsonPrice → result string error
}.

(** The two handler methods, as registered with the mux. *)
Inductive HandlerFunc := HandlePrices | HandlePrice.

Section HTTPAgent.
Context `{Provider} `{PriceHook} `{marshal.Marshaller} `{JSON}.

Record HTTPAgentConfig := {
  PriceProvider : ProviderObj;
  PriceHook_ : HookObj;
  Marshaller : MarshallerObj;
  Logger : log.Logger;
  Address : string
}.

Record HTTPAgent := {
  ctx : option Context;
  waitCh : chan.t;
  address : string;
  server : http.Server;
  priceProvider : ProviderObj;
  priceHook : HookObj;
  marshaller : MarshallerObj;
  log : log.Logger
}.

Definition NewHTTPAgent (cfg : HTTPAgentConfig) : HTTPAgent :=
  {| ctx := None;
     waitCh := chan.make;
     address := Address cfg;
     priceProvider := PriceProvider cfg;
     priceHook := PriceHook_ cfg;
     marshaller := Marshaller cfg;
     log := Logger cfg;
     server := {| http.Addr := Address cfg; http.shut := false |} |}.

Definition set_ctx (c : option Context) (s : HTTPAgent) : HTTPAgent :=
  {| ctx := c; waitCh := waitCh s; address := address s;
     server := server s; priceProvider := priceProvider s;
     priceHook := priceHook s; marshaller := marshaller s; log := log s |}.

Definition set_waitCh (ch : chan.t) (s : HTTPAgent) : HTTPAgent :=
  {| ctx := ctx s; waitCh := ch; address := address s;
     server := server s; priceProvider := priceProvider s;
     priceHook := priceHook s; marshaller := marshaller s; log := log s |}.

Definition set_server (srv : http.Server) (s : HTTPAgent) : HTTPAgent :=
  {| ctx := ctx s; waitCh := waitCh s; address := address s;
     server := srv; priceProvider := priceProvider s;
     priceHook := priceHook s; marshaller := marshaller s; log := log s |}.

Definition set_priceProvider (o : ProviderObj) (s : HTTPAgent) : HTTPAgent :=
  {| ctx := ctx s; waitCh := waitCh s; address := address s;
     server := server s; priceProvider := o;
     priceHook := priceHook s; marshaller := marshaller s; log := log s |}.

Definition set_priceHook (o : HookObj) (s : HTTPAgent) : HTTPAgent :=
  {| ctx := ctx s; waitCh := waitCh s; address := address s;
     server := server s; priceProvider := priceProvider s;
     priceHook := o; marshaller := marshaller s; log := log s |}.

Definition set_marshaller (o : MarshallerObj) (s : HTTPAgent) : HTTPAgent :=
  {| ctx := ctx s; waitCh := waitCh s; address := address s;
     server := server s; priceProvider := priceProvider s;
     priceHook := priceHook s; marshaller := o; log := log s |}.

Definition set_log (l : log.Logger) (s : HTTPAgent) : HTTPAgent :=
  {| ctx := ctx s; waitCh := waitCh s; address := address s;
     server := server s; priceProvider := priceProvider s;
     priceHook := priceHook s; marshaller := marshaller s; log := l |}.

(** ** The handler monad

    A handler runs over the agent and the response writer of its
    request.  [None] as the value says that the handler has executed a
    [return]: what follows is skipped. *)
Definition Handler (A : Type) : Type :=
  HTTPAgent * http.ResponseWriter →
  option A * (HTTPAgent * http.ResponseWriter).

#[global] Instance Handler_ret : MRet Handler :=
  λ A a st, (Some a, st).

#[global] Instance Handler_bind : MBind Handler :=
  λ A B k m st,
    match m st with
    | (Some a, st') => k a st'
    | (None, st') => (None, st')
    end.

(** Go's [return] in the middle of a handler. *)
Definition return_ {A : Type} : Handler A := λ st, (None, st).

Definition on_writer (f : http.ResponseWriter → http.ResponseWriter)
  : Handler unit := λ '(s, w), (Some tt, (s, f w)).

Definition on_agent (f : HTTPAgent → HTTPAgent) : Handler unit :=
  λ '(s, w), (Some tt, (f s, w)).

Definition io_WriteString (data : string) : Handler unit :=
  on_writer (http.Write data).

Definition http_Error (msg : string) (code : nat) : Handler unit :=
  on_writer (http.Error_ msg code).

Definition log_Errorf (fmt : string) (a : list log.Arg) : Handler unit :=
  on_agent (λ s, set_log (log.emit log.Error [] fmt a (log s)) s).

Definition log_Infof (fmt : string) (a : list log.Arg) : Handler unit :=
  on_agent (λ s, set_log (log.emit log.Info [] fmt a (log s)) s).

Definition priceProvider_Prices (pairs : list provider.Pair)
  : Handler (result (gmap provider.Pair Price) error) :=
  λ '(s, w),
    let '(r, o) := Provider_Prices pairs (priceProvider s) in
    (Some r, (set_priceProvider o s, w)).

Definition priceHook_Check (prices : gmap provider.Pair Price)
  : Handler (option error) :=
  λ '(s, w),
    let '(r, o) := Hook_Check prices (priceHook s) in
    (Some r, (set_priceHook o s, w)).

(** [s.marshaller.Write(w, item)]: what the marshaller puts out goes to
    [w]. *)
Definition marshaller_Write (i : marshal.Item) : Handler (option error) :=
  λ '(s, w),
    let '((out, r), o) := Marshaller_Write i (marshaller s) in
    (Some r, (set_marshaller o s, if decide (out = "") then w
                                  else http.Write out w)).

Definition marshaller_Flush : Handler (option error) :=
  λ '(s, w),
    let '((out, r), o) := Marshaller_Flush (marshaller s) in
    (Some r, (set_marshaller o s, if decide (out = "") then w
                                  else http.Write out w)).

(** The literal [`{"error":"<msg>"}`]. *)
Definition error_body (msg : string) : string :=
  "{" +:+ quoted "error" +:+ ":" +:+ quoted msg +:+ "}".

(** ** Request handlers *)

Definition handlePrice (r : http.Request) : Handler unit :=
  (if decide (http.Get "Content-Type" (http.Header r) ≠ "application/json")
   then
     let msg := "Content-Type header is not application/json" in
     http_Error msg http.StatusUnsupportedMediaType;;
     return_
   else mret tt);;
  p ← match Decode_priceRequest (http.Body r) with
      | Error err =>
        http_Error err http.StatusBadRequest;;
        return_
      | Ok p => mret p
      end;
  (if Pair_Empty (Pair p) then
     io_WriteString "{}";;
     return_
   else mret tt);;
  res ← priceProvider_Prices [Pair p];
  prices ← match res with
           | Error err =>
             log_Errorf "failed to get prices: %v" [log.AErr err];;
             io_WriteString (error_body "failed to get prices");;
             return_
           | Ok prices => mret prices
           end;
  err ← priceHook_Check prices;
  match err with
  | Some err =>
    log_Errorf "failed to check prices: %v" [log.AErr err];;
    io_WriteString (error_body "failed to check prices");;
    return_
  | None => mret tt
  end;;
  price ← match prices !! Pair p with
          | None =>
            log_Infof "Invalid price response for %s: %v"
              [log.AStr (Pair_String (Pair p)); log.APrices prices];;
            io_WriteString "{}";;
            return_
          | Some price => mret price
          end;
  b ← match Marshal (jsonPriceFromGoferPrice price) with
      | Error err =>
        log_Infof "Failed to get price for %s: %v"
          [log.AStr (Pair_String (Pair p)); log.AErr err];;
        io_WriteString "{}";;
        return_
      | Ok b => mret b
      end;
  io_WriteString b.

(** The body of [for _, p := range prices], over the entries of the
    map in the order the runtime walks them. *)
Fixpoint range_prices (l : list (provider.Pair * Price)) : Handler unit :=
  match l with
  | [] => mret tt
  | (_, p) :: rest =>
    mErr ← marshaller_Write (marshal.ItemPrice p);
    match mErr with
    | Some mErr =>
      marshaller_Write (marshal.ItemError mErr);;
      mret tt
    | None => mret tt
    end;;
    range_prices rest
  end.

Definition handlePrices (r : http.Request) : Handler unit :=
  (if decide (http.Get "Content-Type" (http.Header r) ≠ "application/json")
   then
     let msg := "Content-Type header is not application/json" in
     http_Error msg http.StatusUnsupportedMediaType;;
     return_
   else mret tt);;
  p ← match Decode_pricesRequest (http.Body r) with
      | Error err =>
        http_Error err http.StatusBadRequest;;
        return_
      | Ok p => mret p
      end;
  match Pairs p with
  | None =>
    io_WriteString "{}";;
    return_
  | Some ps =>
    if decide (length ps = 0) then
      io_WriteString "{}";;
      return_
    else mret tt
  end;;
  res ← priceProvider_Prices (default [] (Pairs p));
  prices ← match res with
           | Error err =>
             log_Errorf "failed to get prices: %v" [log.AErr err];;
             io_WriteString (error_body "failed to get prices");;
             return_
           | Ok prices => mret prices
           end;
  err ← priceHook_Check prices;
  match err with
  | Some err =>
    log_Errorf "failed to check prices: %v" [log.AErr err];;
    io_WriteString (error_body "failed to check prices");;
    return_
  | None => mret tt
  end;;
  range_prices (map_to_list prices);;
  err ← marshaller_Flush;
  match err with
  | Some err =>
    log_Errorf "failed to marshal response: %v" [log.AErr err];;
    io_WriteString (error_body "failed to marshal json");;
    return_
  | None => mret tt
  end.

(** The method value behind a [HandlerFunc]. *)
Definition handler (h : HandlerFunc) : http.Request → Handler unit :=
  match h with
  | HandlePrices => handlePrices
  | HandlePrice => handlePrice
  end.

(** The server calls a handler with a fresh response writer; the
    answer is the agent afterwards and what was written. *)
Definition serve (h : HandlerFunc) (r : http.Request) (s : HTTPAgent)
  : HTTPAgent * http.ResponseWriter :=
  (handler h r (s, http.newResponse)).2.

(** ** The process around an agent *)

(** A goroutine of the agent, parked at its blocking point. *)
Inductive Goroutine :=
| GServer                     (* the [go func()] of [Start], at its start *)
| GListening                  (* inside [s.server.ListenAndServe()] *)
| GCancelHandler              (* at [<-s.ctx.Done()] *)
| GSending (v : option error) (* at [s.waitCh <- v] *)
| GExited.

#[global] Instance Goroutine_eq_dec : EqDecision Goroutine.
Proof. solve_decision. Defined.

(** [mux] is [http.DefaultServeMux], one per process. *)
Record Process := {
  self : HTTPAgent;
  mux : gmap string HandlerFunc;
  goroutines : list Goroutine;
  cancelled : gset Context;
  received : list Received;
  responses : list http.ResponseWriter;
  panicked : option string
}.

Definition boot (s : HTTPAgent) : Process :=
  {| self := s; mux := ∅; goroutines := []; cancelled := ∅;
     received := []; responses := []; panicked := None |}.

Definition set_self (s : HTTPAgent) (p : Process) : Process :=
  {| self := s; mux := mux p; goroutines := goroutines p;
     cancelled := cancelled p; received := received p;
     responses := responses p; panicked := panicked p |}.

Definition set_mux (m : gmap string HandlerFunc) (p : Process) : Process :=
  {| self := self p; mux := m; goroutines := goroutines p;
     cancelled := cancelled p; received := received p;
     responses := responses p; panicked := panicked p |}.

Definition set_goroutines (gs : list Goroutine) (p : Process) : Process :=
  {| self := self p; mux := mux p; goroutines := gs;
     cancelled := cancelled p; received := received p;
     responses := responses p; panicked := panicked p |}.

(** The [go] statement. *)
Definition go (r : Goroutine) (p : Process) : Process :=
  set_goroutines (goroutines p ++ [r]) p.

Definition cancel (c : Context) (p : Process) : Process :=
  {| self := self p; mux := mux p; goroutines := goroutines p;
     cancelled := {[c]} ∪ cancelled p; received := received p;
     responses := responses p; panicked := panicked p |}.

Definition receive (r : Received) (p : Process) : Process :=
  {| self := self p; mux := mux p; goroutines := goroutines p;
     cancelled := cancelled p; received := received p ++ [r];
     responses := responses p; panicked := panicked p |}.

Definition respond (w : http.ResponseWriter) (p : Process) : Process :=
  {| self := self p; mux := mux p; goroutines := goroutines p;
     cancelled := cancelled p; received := received p;
     responses := responses p ++ [w]; panicked := panicked p |}.

Definition panic (msg : string) (p : Process) : Process :=
  {| self := self p; mux := mux p; goroutines := goroutines p;
     cancelled := cancelled p; received := received p;
     responses := responses p; panicked := Some msg |}.

(** [http.HandleFunc(pattern, h)] on the process-wide mux; a pattern
    registered twice panics ([None]). *)
Definition HandleFunc (pattern : string) (h : HandlerFunc)
    (m : gmap string HandlerFunc) : option (gmap string HandlerFunc) :=
  match m !! pattern with
  | Some _ => None
  | None => Some (<[pattern := h]> m)
  end.

(** ** Methods *)

Definition initServer (p : Process) : Process * StartResult :=
  let s := self p in
  let l := log.emit log.Info [] "initializing HTTP server on %s"
             [log.AStr (address s)] (log s) in
  let p := set_self (set_log l s) p in
  match (m ← HandleFunc "/" HandlePrices (mux p);
         m ← HandleFunc "/price" HandlePrice m;
         HandleFunc "/prices" HandlePrices m) with
  | Some m => (set_mux m p, Returned None)
  | None => (p, Panicked "http: multiple registrations")
  end.

(** [Start] implements the supervisor.Service interface. *)
Definition Start (ctx0 : option Context) (p : Process)
  : Process * StartResult :=
  let s := self p in
  match ctx s with
  | Some _ => (p, Returned (Some "service can be started only once"))
  | None =>
    match ctx0 with
    | None => (p, Returned (Some "context must not be nil"))
    | Some c =>
      let s := set_log (log.emit log.Debug [] "Starting" [] (log s)) s in
      let s := set_ctx (Some c) s in
      let p := set_self s p in
      match initServer p with
      | (p, Panicked msg) => (panic msg p, Panicked msg)
      | (p, Returned (Some err)) => (p, Returned (Some err))
      | (p, Returned None) =>
        let p := go GServer p in
        let p := go GCancelHandler p in
        (p, Returned None)
      end
    end
  end.

(** [Wait] implements the supervisor.Service interface. *)
Definition Wait (s : HTTPAgent) : chan.t := waitCh s.

(** The [go func()] of [Start]: before [ListenAndServe] ... *)
Definition server_starting (s : HTTPAgent) : HTTPAgent :=
  set_log (log.emit log.Debug [] "Starting HTTP server" [] (log s)) s.

(** ... and after it returned [err], which is never [nil]. *)
Definition server_returned (err : error) (s : HTTPAgent) : HTTPAgent :=
  if decide (err ≠ http.ErrServerClosed) then
    set_log (log.emit log.Error [("error", log.AErr err)]
               "HTTP server crashed" [] (log s)) s
  else s.

(** [contextCancelHandler] from [<-s.ctx.Done()] to the send: the
    server is closed, and the routine parks with what [Close] answered. *)
Definition contextCancelHandler_close (s : HTTPAgent) : HTTPAgent :=
  set_server (http.Close (server s)) s.

(** [contextCancelHandler] from the send that met a receiver to its
    end: the deferred calls run last-in first-out, the log entry and
    then [close(s.waitCh)]. [None] is the panic of a second close. *)
Definition contextCancelHandler_sent (v : option error) (s : HTTPAgent)
  : option HTTPAgent :=
  let s := set_waitCh (chan.hand_over v (waitCh s)) s in
  let s := set_log (log.emit log.Debug [] "Stopped" [] (log s)) s in
  match chan.close (waitCh s) with
  | Some ch => Some (set_waitCh ch s)
  | None => None
  end.

(** ** Scheduling *)

Inductive Label :=
| LStart (c : option Context)       (* somebody calls [Start] *)
| LCancel (c : Context)             (* a context gets cancelled *)
| LServe (i : nat) (e : option error)
    (* goroutine [i] moves on in or around [ListenAndServe]; [e] is the
       failure the network answers with, if any *)
| LClose (i : nat) (e : option error)
    (* goroutine [i] sees [ctx.Done()] and calls [server.Close()],
       which answers [e] *)
| LRequest (path : string) (r : http.Request)
    (* the server hands a request to the mux *)
| LRecv.                            (* a waiter receives from [Wait()] *)

(** Is the stored context done? *)
Definition done (p : Process) : bool :=
  match ctx (self p) with
  | Some c => bool_decide (c ∈ cancelled p)
  | None => false
  end.

(** The first goroutine parked at the send, with its value. *)
Fixpoint sender (gs : list Goroutine) : option (nat * option error) :=
  match gs with
  | [] => None
  | GSending v :: _ => Some (0, v)
  | _ :: rest => prod_map S id <$> sender rest
  end.

(** The mux's choice of handler: the exact pattern, else the
    catch-all ["/"]. *)
Definition route (path : string) (m : gmap string HandlerFunc)
  : option HandlerFunc :=
  match m !! path with
  | Some h => Some h
  | None => m !! "/"
  end.

Definition listening (p : Process) : bool :=
  bool_decide (GListening ∈ goroutines p) && negb (http.shut (server (self p))).

(** What the server goroutine [i] does when [ListenAndServe] returns
    [err]. *)
Definition serve_exit (i : nat) (err : error) (s : HTTPAgent) (p : Process)
  : Process :=
  set_self (server_returned err s)
    (set_goroutines (<[i := GExited]> (goroutines p)) p).

(** One scheduling step; [None] when the label cannot fire. *)
Definition step (l : Label) (p : Process) : option Process :=
  match panicked p with
  | Some _ => None
  | None =>
    match l with
    | LStart c => Some (Start c p).1
    | LCancel c => Some (cancel c p)
    | LServe i e =>
      match goroutines p !! i with
      | Some GServer =>
        let s := server_starting (self p) in
        if http.shut (server s) then
          Some (serve_exit i http.ErrServerClosed s p)
        else
          match e with
          | Some err => Some (serve_exit i err s p)
          | None =>
            Some (set_self s
                    (set_goroutines (<[i := GListening]> (goroutines p)) p))
          end
      | Some GListening =>
        if http.shut (server (self p)) then
          Some (serve_exit i http.ErrServerClosed (self p) p)
        else
          match e with
          | Some err => Some (serve_exit i err (self p) p)
          | None => None
          end
      | _ => None
      end
    | LClose i e =>
      if done p then
        match goroutines p !! i with
        | Some GCancelHandler =>
          let s := contextCancelHandler_close (self p) in
          if chan.closed (waitCh s) then
            Some (panic "send on closed channel" (set_self s p))
          else
            Some (set_self s
                    (set_goroutines (<[i := GSending e]> (goroutines p)) p))
        | _ => None
        end
      else None
    | LRequest path r =>
      if listening p then
        match route path (mux p) with
        | Some h =>
          let '(s, w) := serve h r (self p) in
          Some (respond w (set_self s p))
        | None =>
          Some (respond (http.Error_ "404 page not found" 404
                           http.newResponse) p)
        end
      else None
    | LRecv =>
      if chan.closed (Wait (self p)) then Some (receive (None, false) p)
      else
        match sender (goroutines p) with
        | Some (i, v) =>
          match contextCancelHandler_sent v (self p) with
          | Some s =>
            Some (receive (v, true)
                    (set_self s
                       (set_goroutines (<[i := GExited]> (goroutines p)) p)))
          | None => Some (panic "close of closed channel" p)
          end
        | None => None
        end
    end
  end.

(** A schedule, run from left to right. *)
Fixpoint run (ls : list Label) (p : Process) : option Process :=
  match ls with
  | [] => Some p
  | l :: rest =>
    match step l p with
    | Some p' => run rest p'
    | None => None
    end
  end.

(** A handler action leaves the lifecycle fields of the agent alone:
    the stored context, the completion channel and the server. *)
Definition frames {A : Type} (m : Handler A) : Prop :=
  ∀ s w, ctx (m (s, w)).2.1 = ctx s ∧
         waitCh (m (s, w)).2.1 = waitCh s ∧
         server (m (s, w)).2.1 = server s.

(** The shape of a started agent's process: the stored context, no
    crash, the two goroutines of [Start], and a completion channel that
    is untouched until the cancel handler's send has met a receiver
    and closed, with that one value sent, afterwards. *)
Definition running (c : Context) (p : Process) : Prop :=
  ctx (self p) = Some c ∧ panicked p = None ∧
  ∃ sv w, goroutines p = [sv; w] ∧
    (sv = GServer ∨ sv = GListening ∨ sv = GExited) ∧
    match w with
    | GCancelHandler | GSending _ => waitCh (self p) = chan.make
    | GExited =>
      ∃ v, waitCh (self p) = {| chan.closed := true; chan.sent := [v] |}
    | _ => False
    end.

End HTTPAgent.
End agent.

(** * The supervisor.Service interface

    Both components implement it; a lifecycle component is either of
    them, and a call through the interface goes to the component's own
    method. *)
Module service.
Section Service.
Context `{Provider} `{PriceHook} `{marshal.Marshaller} `{agent.JSON}.

Inductive Component :=
| TheCache (p : prices.Process)
| TheAgent (p : agent.Process).

Inductive Event :=
| CacheEvent (l : prices.Label)
| AgentEvent (l : agent.Label).

Definition Start (ctx : option Context) (x : Component)
  : Component * StartResult :=
  match x with
  | TheCache p => prod_map TheCache id (prices.Start ctx p)
  | TheAgent p => prod_map TheAgent id (agent.Start ctx p)
  end.

Definition Wait (x : Component) : chan.t :=
  match x with
  | TheCache p => prices.Wait (prices.self p)
  | TheAgent p => agent.Wait (agent.self p)
  end.

(** The stored context, the "started" marker. *)
Definition started (x : Component) : option Context :=
  match x with
  | TheCache p => prices.ctx (prices.self p)
  | TheAgent p => agent.ctx (agent.self p)
  end.

(** How many goroutines the component has spawned so far. *)
Definition spawned (x : Component) : nat :=
  match x with
  | TheCache p => length (prices.goroutines p)
  | TheAgent p => length (agent.goroutines p)
  end.

(** What waiters have received from [Wait()] so far. *)
Definition received (x : Component) : list Received :=
  match x with
  | TheCache p => prices.received p
  | TheAgent p => agent.received p
  end.

(** The contexts cancelled so far. *)
Definition cancelled (x : Component) : gset Context :=
  match x with
  | TheCache p => prices.cancelled p
  | TheAgent p => agent.cancelled p
  end.




Definition step (e : Event) (x : Component) : option Component :=
  match e, x with
  | CacheEvent l, TheCache p => TheCache <$> prices.step l p
  | AgentEvent l, TheAgent p => TheAgent <$> agent.step l p
  | _, _ => None
  end.

Fixpoint run (es : list Event) (x : Component) : option Component :=
  match es with
  | [] => Some x
  | e :: rest =>
    match step e x with
    | Some x' => run rest x'
    | None => None
    end
  end.

End Service.
End service.

(** * Sample collaborators

    A provider, a hook, a marshaller and a JSON codec to run the
    components on. *)
Module sample.

Definition BTCUSD : Pair := {| Base := "BTC"; Quote := "USD" |}.
Definition ETHUSD : Pair := {| Base := "ETH"; Quote := "USD" |}.
Definition XRPUSD : Pair := {| Base := "XRP"; Quote := "USD" |}.
Definition DOGEUSD : Pair := {| Base := "DOGE"; Quote := "USD" |}.
Definition LTCUSD : Pair := {| Base := "LTC"; Quote := "USD" |}.

Definition tick (pr : Pair) (err : string) : Price :=
  {| pType := "median"; pPair := pr; pPrice := 100%Z; pBid := 99%Z;
     pAsk := 101%Z; pVolume24h := 0%Z;
     pTime := {| time.instant := 1700000000%Z; time.loc := "Local" |};
     pParameters := ∅; pPrices := []; pError := err |}.

(** One pair, [Price]: [ETH/USD] fails, [LTC/USD] comes back with an
    error marker, every other pair has a tick.  Several pairs,
    [Prices]: the call fails if [ETH/USD] is asked for; [XRP/USD] is
    left out of the answer.  The state counts the calls. *)
Definition price_of (pr : Pair) : result Price error :=
  if decide (pr = ETHUSD) then Error "no route to exchange"
  else if decide (pr = LTCUSD) then Ok (tick pr "stale source")
  else Ok (tick pr "").

Definition prices_of (ps : list Pair) : result (gmap Pair Price) error :=
  if decide (ETHUSD ∈ ps) then Error "no route to exchange"
  else Ok (list_to_map
             ((λ pr, (pr, tick pr "")) <$>
              filter (λ pr, pr ≠ XRPUSD) ps)).

#[global] Instance provider : Provider := {|
  provider_state := nat;
  provider_Price pr n := (price_of pr, S n);
  provider_Prices ps n := (prices_of ps, S n);
  NewPairs _ := Ok [BTCUSD; ETHUSD; LTCUSD]
|}.

(** The hook rejects any batch that holds [DOGE/USD]. *)
#[global] Instance hook : PriceHook := {|
  hook_state := unit;
  hook_Check m st :=
    (if decide (is_Some (m !! DOGEUSD)) then Some "price too old" else None,
     st)
|}.

(** The marshaller buffers one line per item and puts them out on
    [Flush]. *)
#[global] Instance marshaller : marshal.Marshaller := {|
  marshal.marshaller_state := string;
  marshal.marshaller_Write i buf :=
    match i with
    | marshal.ItemPrice p =>
      ((EmptyString, None), buf +:+ Pair_String (pPair p) +:+ newline)
    | marshal.ItemError e => ((EmptyString, None), buf +:+ e +:+ newline)
    end;
  marshal.marshaller_Flush buf := ((buf, None), EmptyString)
|}.

(** The codec knows a handful of bodies by name. *)
#[global] Instance json : agent.JSON := {|
  agent.Decode_priceRequest b :=
    if decide (b = "btc") then Ok {| agent.Pair := BTCUSD |}
    else if decide (b = "eth") then Ok {| agent.Pair := ETHUSD |}
    else if decide (b = "xrp") then Ok {| agent.Pair := XRPUSD |}
    else if decide (b = "doge") then Ok {| agent.Pair := DOGEUSD |}
    else if decide (b = "{}") then
      Ok {| agent.Pair := {| Base := EmptyString; Quote := EmptyString |} |}
    else Error "invalid character";
  agent.Decode_pricesRequest b :=
    if decide (b = "btc") then Ok {| agent.Pairs := Some [BTCUSD] |}
    else if decide (b = "eth") then Ok {| agent.Pairs := Some [ETHUSD] |}
    else if decide (b = "doge") then
      Ok {| agent.Pairs := Some [BTCUSD; DOGEUSD] |}
    else if decide (b = "[]") then Ok {| agent.Pairs := Some [] |}
    else if decide (b = "{}") then Ok {| agent.Pairs := None |}
    else Error "invalid character";
  agent.Marshal j := Ok ("{" +:+ agent.jBase j +:+ agent.jQuote j +:+ "}")
|}.

Definition json_request (b : string) : http.Request :=
  {| http.Header := {[ "Content-Type" := ["application/json"] ]};
     http.Body := b |}.

Definition text_request (b : string) : http.Request :=
  {| http.Header := {[ "Content-Type" := ["text/plain"] ]};
     http.Body := b |}.

Definition cache : prices.Cache :=
  {| prices.ctx := None;
     prices.waitCh := chan.make;
     prices.interval := {| timeutil.started := None |};
     prices.priceProvider := {| pstate := 0; pcalls := [] |};
     prices.pairs := [BTCUSD; ETHUSD; LTCUSD];
     prices.log := log.WithField "tag" (log.AStr prices.LoggerTag) log.null;
     prices.prices := None |}.

Definition config : prices.Config :=
  {| prices.Pairs := ["BTC/USD"; "ETH/USD"; "LTC/USD"];
     prices.PriceProvider := Some {| pstate := 0; pcalls := [] |};
     prices.Interval := {| timeutil.started := None |};
     prices.Logger := None |}.

Definition agent : agent.HTTPAgent :=
  agent.NewHTTPAgent
    {| agent.PriceProvider := {| pstate := 0; pcalls := [] |};
       agent.PriceHook_ := {| hstate := tt; hcalls := [] |};
       agent.Marshaller := {| mstate := EmptyString; mcalls := [] |};
       agent.Logger := log.null;
       agent.Address := "127.0.0.1:8080" |}.




(** The sample agent started with context 7; then after it began to
    listen, served one request and saw the context cancelled. *)
Definition agent_started : agent.Process :=
  (agent.Start (Some 7) (agent.boot agent)).1.

Definition agent_cancelled : agent.Process :=
  default agent_started
    (agent.run [agent.LServe 0 None;
                agent.LRequest "/price" (json_request "btc");
                agent.LCancel 7] agent_started).

End sample.

(** * Request handling *)

Ltac handler_unfold :=
  unfold agent.serve, agent.handler, agent.handlePrice, agent.handlePrices;
  unfold mbind, mret, agent.Handler_bind, agent.Handler_ret, agent.return_,
    agent.io_WriteString, agent.http_Error, agent.log_Errorf,
    agent.log_Infof, agent.on_writer, agent.on_agent,
    agent.priceProvider_Prices, agent.priceHook_Check.

Section HandlerFacts.
Context `{Provider} `{PriceHook} `{marshal.Marshaller} `{agent.JSON}.

(** The Go literal of the error envelope, piece by piece: 32
    characters for [{"error":"failed to get prices"}]. *)
Lemma error_body_literal :
  agent.error_body "failed to get prices" =
    "{" +:+ dquote +:+ "error" +:+ dquote +:+ ":" +:+
    dquote +:+ "failed to get prices" +:+ dquote +:+ "}" ∧
  String.length (agent.error_body "failed to get prices") = 32.
Proof. split; reflexivity. Qed.

(** The body that [http.Error] writes on a fresh writer. *)
Lemma http_Error_fresh (msg : string) (code : nat) :
  http.answers (http.Error_ msg code http.newResponse) code (msg +:+ newline).
Proof. done. Qed.

(** The mux of a fresh process after [initServer]. *)
Lemma initServer_mux (s : agent.HTTPAgent) :
  agent.initServer (agent.boot s) =
    (agent.set_mux
       (<["/prices" := agent.HandlePrices]>
          (<["/price" := agent.HandlePrice]>
             (<["/" := agent.HandlePrices]> ∅)))
       (agent.set_self
          (agent.set_log
             (log.emit log.Info [] "initializing HTTP server on %s"
                [log.AStr (agent.address s)] (agent.log s)) s)
          (agent.boot s)),
     Returned None).
Proof. reflexivity. Qed.

(** The routes of [initServer] in a process with an empty mux: the
    single-pair path goes to [handlePrice], every other path to
    [handlePrices]. *)
Lemma initServer_routes (s : agent.HTTPAgent) (path : string) :
  agent.route path (agent.mux (agent.initServer (agent.boot s)).1) =
  Some (if decide (path = "/price") then agent.HandlePrice
        else agent.HandlePrices).
Proof.
  rewrite initServer_mux. unfold agent.route. simpl.
  destruct (decide (path = "/price")) as [->|Hp]; [done|].
  destruct (decide (path = "/prices")) as [->|Hps]; [done|].
  destruct (decide (path = "/")) as [->|Hr]; [done|].
  rewrite !lookup_insert_ne, lookup_empty by done.
  done.
Qed.

(** C4. A request whose [Content-Type] is not exactly
    [application/json] is answered, by either handler, with status 415
    and the rejection reason (as [http.Error] writes it, with its line
    feed) as the body; the agent is left as it was, so the journal of
    the price provider has no new call. *)
Theorem C4_unsupported_media_type
    (h : agent.HandlerFunc) (r : http.Request) (s : agent.HTTPAgent) :
  http.Get "Content-Type" (http.Header r) ≠ "application/json" →
  ∃ w, agent.serve h r s = (s, w) ∧
       http.answers w http.StatusUnsupportedMediaType
         ("Content-Type header is not application/json" +:+ newline) ∧
       pcalls (agent.priceProvider (agent.serve h r s).1) =
         pcalls (agent.priceProvider s).
Proof.
  intros Hct. eexists.
  assert (agent.serve h r s =
          (s, http.Error_ "Content-Type header is not application/json"
                http.StatusUnsupportedMediaType http.newResponse)) as ->.
  { destruct h; handler_unfold; by rewrite decide_True. }
  split; [reflexivity|]. split; [apply http_Error_fresh | done].
Qed.


(** C6. With the right [Content-Type] and a body that decodes, a
    request that asks for nothing (a [nil] or empty pair set on the
    multi-pair handler, the empty pair on the single-pair one) is
    answered with status 200 and exactly [{}]; the agent is left as it
    was, so neither the provider nor the hook nor the marshaller has a
    new call in its journal. *)
Theorem C6_nothing_requested (r : http.Request) (s : agent.HTTPAgent) :
  http.Get "Content-Type" (http.Header r) = "application/json" →
  (∀ p,
     agent.Decode_pricesRequest (http.Body r) = Ok p →
     agent.Pairs p = None ∨ agent.Pairs p = Some [] →
     (agent.serve agent.HandlePrices r s).1 = s ∧
     http.answers (agent.serve agent.HandlePrices r s).2 http.StatusOK "{}") ∧
  (∀ p,
     agent.Decode_priceRequest (http.Body r) = Ok p →
     Pair_Empty (agent.Pair p) = true →
     (agent.serve agent.HandlePrice r s).1 = s ∧
     http.answers (agent.serve agent.HandlePrice r s).2 http.StatusOK "{}").
Proof.
  intros Hct. split.
  - intros p Hd Hps. handler_unfold.
    rewrite decide_False by (by intros []).
    rewrite Hd. by destruct Hps as [-> | ->].
  - intros p Hd He. handler_unfold.
    rewrite decide_False by (by intros []).
    by rewrite Hd, He.
Qed.

(** C7. On the single-pair handler, when [Prices] and [Check] both
    succeed and the mapping that [Prices] returned has no entry for the
    requested pair, the answer is status 200 with exactly [{}]. *)
Theorem C7_missing_pair_answers_empty_object
    (r : http.Request) (s : agent.HTTPAgent)
    (p : agent.priceRequest) (m : gmap Pair Price)
    (o : ProviderObj) (o' : HookObj) :
  http.Get "Content-Type" (http.Header r) = "application/json" →
  agent.Decode_priceRequest (http.Body r) = Ok p →
  Pair_Empty (agent.Pair p) = false →
  Provider_Prices [agent.Pair p] (agent.priceProvider s) = (Ok m, o) →
  Hook_Check m (agent.priceHook s) = (None, o') →
  m !! agent.Pair p = None →
  http.answers (agent.serve agent.HandlePrice r s).2 http.StatusOK "{}".
Proof.
  intros Hct Hd He Hp Hh Hm. handler_unfold.
  rewrite decide_False by (by intros []).
  rewrite Hd, He. simpl. rewrite Hp. simpl. rewrite Hh, Hm. done.
Qed.

End HandlerFacts.

(** C4 on the sample agent: a [text/plain] request on the single-pair
    handler. *)
Lemma C4_witness :
  http.Get "Content-Type" (http.Header (sample.text_request "btc"))
    ≠ "application/json" ∧
  ∃ w, agent.serve agent.HandlePrice (sample.text_request "btc")
         sample.agent = (sample.agent, w) ∧
       http.answers w http.StatusUnsupportedMediaType
         ("Content-Type header is not application/json" +:+ newline) ∧
       pcalls (agent.priceProvider
                 (agent.serve agent.HandlePrice (sample.text_request "btc")
                    sample.agent).1) =
         pcalls (agent.priceProvider sample.agent).
Proof.
  split; [by vm_compute|].
  apply (C4_unsupported_media_type agent.HandlePrice
           (sample.text_request "btc") sample.agent).
  by vm_compute.
Defined.


(** C6 on the sample agent: the body [{"Pairs":[]}]. *)
Lemma C6_witness :
  (agent.serve agent.HandlePrices (sample.json_request "[]")
     sample.agent).1 = sample.agent ∧
  http.answers
    (agent.serve agent.HandlePrices (sample.json_request "[]")
       sample.agent).2
    http.StatusOK "{}".
Proof.
  refine (proj1 (C6_nothing_requested (sample.json_request "[]")
                   sample.agent _) {| agent.Pairs := Some [] |} _ _).
  - by vm_compute.
  - by vm_compute.
  - by right.
Defined.

(** C7 on the sample agent: the provider leaves [XRP/USD] out. *)
Lemma C7_witness :
  http.answers
    (agent.serve agent.HandlePrice (sample.json_request "xrp")
       sample.agent).2
    http.StatusOK "{}".
Proof.
  refine (C7_missing_pair_answers_empty_object
            (sample.json_request "xrp") sample.agent
            {| agent.Pair := sample.XRPUSD |} ∅
            {| pstate := 1;
               pcalls := [CallPrices [sample.XRPUSD] (Ok ∅)] |}
            {| hstate := tt; hcalls := [(∅, None)] |} _ _ _ _ _ _);
    reflexivity.
Defined.

(** * The polling cache *)

Section CacheFacts.
Context `{Provider}.

(** [update] asks the provider once and reports a failed fetch. *)
Lemma update_spec (pr : Pair) (g : prices.Cache) :
  ∃ r st,
    provider_Price pr (pstate (prices.priceProvider g)) = (r, st) ∧
    prices.update pr g =
      (prices.fetch_failure r,
       prices.set_priceProvider
         {| pstate := st;
            pcalls := pcalls (prices.priceProvider g) ++ [CallPrice pr r] |}
         g).
Proof.
  unfold prices.update, Provider_Price.
  destruct (provider_Price pr (pstate (prices.priceProvider g)))
    as [r st] eqn:E.
  exists r, st. split; [done|].
  destruct r as [tick|err]; simpl; [|done].
  destruct (decide (pError tick ≠ "")) as [Hne|Heq];
    destruct (decide (pError tick = "")); done.
Qed.

(** The loop over the pairs: one fetch and one log entry per pair, in
    the order of the list, whatever the fetches answer; nothing else of
    the cache changes. *)
Lemma range_pairs_spec (ps : list Pair) (g : prices.Cache) :
  ∃ fetched : list (Pair * result Price error),
    fetched.*1 = ps ∧
    let g' := prices.range_pairs ps g in
    prices.ctx g' = prices.ctx g ∧
    prices.waitCh g' = prices.waitCh g ∧
    prices.interval g' = prices.interval g ∧
    prices.pairs g' = prices.pairs g ∧
    prices.prices g' = prices.prices g ∧
    log.bound (prices.log g') = log.bound (prices.log g) ∧
    pcalls (prices.priceProvider g') =
      pcalls (prices.priceProvider g) ++ (uncurry CallPrice <$> fetched) ∧
    log.entries (prices.log g') =
      log.entries (prices.log g) ++
      (uncurry (prices.cycle_entry (prices.log g)) <$> fetched).
Proof.
  revert g. induction ps as [|pr rest IH]; intros g.
  - exists []. simpl. by rewrite !app_nil_r.
  - destruct (update_spec pr g) as (r & st & _ & Hu).
    simpl. rewrite Hu.
    destruct (prices.fetch_failure r) as [e|] eqn:Hf;
      match goal with |- context [prices.range_pairs rest ?g1] =>
        destruct (IH g1) as (fetched & Hfst & IH') end;
      exists ((pr, r) :: fetched);
      (split; [by rewrite fmap_cons, Hfst|]);
      simpl in *;
      destruct IH' as (-> & -> & -> & -> & -> & -> & -> & ->);
      repeat split; try done; rewrite <- app_assoc; try done;
      simpl; unfold prices.cycle_entry at 2; by rewrite Hf.
Qed.

(** A failed fetch is logged as a warning, an update as information. *)
Lemma cycle_entry_level (l : log.Logger) (pr : Pair)
    (r : result Price error) :
  log.level (prices.cycle_entry l pr r) =
    if prices.fetch_failure r is Some _ then log.Warn else log.Info.
Proof. unfold prices.cycle_entry. by destruct (prices.fetch_failure r). Qed.

(** C3. A tick taken by the broadcaster goroutine runs one cycle: the
    provider is asked exactly once for every configured pair, in the
    configured order, whatever the earlier pairs of the cycle answered
    (no pair is dropped after a failure, none is asked twice); each
    pair leaves one log entry, a warning when its fetch failed (the
    call failed or the tick has an error marker) and an informational
    entry otherwise; and the goroutine is back at its [select]
    afterwards. *)
Theorem C3_failed_pair_is_skipped (p : prices.Process) (i : nat) :
  prices.panicked p = None →
  prices.goroutines p !! i = Some prices.GBroadcaster →
  ∃ p' (fetched : list (Pair * result Price error)),
    prices.step (prices.LTick i) p = Some p' ∧
    prices.goroutines p' = prices.goroutines p ∧
    fetched.*1 = prices.pairs (prices.self p) ∧
    pcalls (prices.priceProvider (prices.self p')) =
      pcalls (prices.priceProvider (prices.self p)) ++
      (uncurry CallPrice <$> fetched) ∧
    log.entries (prices.log (prices.self p')) =
      log.entries (prices.log (prices.self p)) ++
      (uncurry (prices.cycle_entry (prices.log (prices.self p)))
         <$> fetched).
Proof.
  intros Hp Hi. unfold prices.step. rewrite Hp, Hi. simpl.
  destruct (range_pairs_spec (prices.pairs (prices.self p)) (prices.self p))
    as (fetched & Hfst & _ & _ & _ & _ & _ & _ & Hcalls & Hlog).
  eexists _, fetched. split; [reflexivity|]. simpl.
  split; [by apply list_insert_id|]. done.
Qed.

(** What no step of the cache's process touches: the snapshot map, the
    values sent on the completion channel, a context once stored. *)
Lemma cache_step_frame (l : prices.Label) (p p' : prices.Process) :
  prices.step l p = Some p' →
  prices.prices (prices.self p') = prices.prices (prices.self p) ∧
  chan.sent (prices.waitCh (prices.self p')) =
    chan.sent (prices.waitCh (prices.self p)) ∧
  (is_Some (prices.ctx (prices.self p)) →
   prices.ctx (prices.self p') = prices.ctx (prices.self p)) ∧
  (prices.received p' = prices.received p ∨
   prices.received p' = prices.received p ++ [(None, false)]).
Proof.
  unfold prices.step. destruct (prices.panicked p); [done|].
  destruct l as [c|c|i|i|].
  - intros [= <-]. unfold prices.Start.
    destruct (prices.ctx (prices.self p)) eqn:Hc; [by auto|].
    destruct c; simpl; repeat split; auto.
    by intros [? [=]].
  - intros [= <-]. simpl. auto.
  - destruct (prices.goroutines p !! i) as [[]|]; try done.
    intros [= <-]. simpl.
    destruct (range_pairs_spec (prices.pairs (prices.self p)) (prices.self p))
      as (f & _ & Hc & Hw & _ & _ & Hp & _).
    rewrite Hc, Hw, Hp. auto.
  - destruct (prices.done p); [|done].
    destruct (prices.goroutines p !! i) as [[]|]; try done.
    + intros [= <-]. simpl. auto.
    + unfold prices.contextCancelHandler, chan.close. simpl.
      destruct (chan.closed (prices.waitCh (prices.self p)));
        intros [= <-]; simpl; auto.
  - destruct (chan.closed _); [|done]. intros [= <-]. simpl. auto.
Qed.
End CacheFacts.

(** C3 on the sample cache, started: its pairs are BTC/USD (fine),
    ETH/USD (the call fails) and LTC/USD (a tick with an error
    marker). *)
Lemma C3_witness :
  ∃ p' (fetched : list (Pair * result Price error)),
    prices.step (prices.LTick 0)
      (prices.Start (Some 1) (prices.boot sample.cache)).1 = Some p' ∧
    prices.goroutines p' =
      prices.goroutines (prices.Start (Some 1) (prices.boot sample.cache)).1 ∧
    fetched.*1 = prices.pairs sample.cache ∧
    pcalls (prices.priceProvider (prices.self p')) =
      [] ++ (uncurry CallPrice <$> fetched) ∧
    log.entries (prices.log (prices.self p')) =
      log.entries
        (prices.log
           (prices.self
              (prices.Start (Some 1) (prices.boot sample.cache)).1)) ++
      (uncurry (prices.cycle_entry (prices.log sample.cache)) <$> fetched).
Proof.
  apply (C3_failed_pair_is_skipped
           (prices.Start (Some 1) (prices.boot sample.cache)).1 0);
    reflexivity.
Defined.

Section CacheLifecycle.
Context `{Provider}.

(** The same along a whole schedule; every receive so far got the zero
    value of a closed channel. *)
Lemma cache_run_frame (ls : list prices.Label) (p p' : prices.Process) :
  prices.run ls p = Some p' →
  prices.prices (prices.self p') = prices.prices (prices.self p) ∧
  chan.sent (prices.waitCh (prices.self p')) =
    chan.sent (prices.waitCh (prices.self p)) ∧
  (is_Some (prices.ctx (prices.self p)) →
   prices.ctx (prices.self p') = prices.ctx (prices.self p)) ∧
  (Forall (λ r, r = (None, false)) (prices.received p) →
   Forall (λ r, r = (None, false)) (prices.received p')).
Proof.
  revert p. induction ls as [|l ls IH]; intros p; simpl.
  - by intros [= <-].
  - destruct (prices.step l p) as [p1|] eqn:Hs; [|done].
    intros Hr. destruct (IH _ Hr) as (Hp & Hw & Hc & Hrc).
    destruct (cache_step_frame _ _ _ Hs) as (Hp1 & Hw1 & Hc1 & Hrc1).
    rewrite Hp, Hw, Hp1, Hw1. repeat split.
    + intros Hsome. rewrite Hc, Hc1; [done..|]. by rewrite Hc1.
    + intros Hall. apply Hrc. destruct Hrc1 as [-> | ->]; [done|].
      apply Forall_app. split; [done|]. by constructor.
Qed.





End CacheLifecycle.

(** * The HTTP agent's process *)

Section AgentLifecycle.
Context `{Provider} `{PriceHook} `{marshal.Marshaller} `{agent.JSON}.

Lemma frames_ret {A : Type} (a : A) : agent.frames (mret a).
Proof. by intros s w. Qed.

Lemma frames_return {A : Type} : agent.frames (@agent.return_ _ _ _ A).
Proof. by intros s w. Qed.

Lemma frames_bind {A B : Type} (m : agent.Handler A)
    (k : A → agent.Handler B) :
  agent.frames m → (∀ a, agent.frames (k a)) → agent.frames (m ≫= k).
Proof.
  intros Hm Hk s w. unfold mbind, agent.Handler_bind.
  specialize (Hm s w). destruct (m (s, w)) as [[a|] [s1 w1]]; [|done].
  specialize (Hk a s1 w1). simpl in *.
  destruct Hm as (<- & <- & <-). done.
Qed.

Lemma frames_on_writer (f : http.ResponseWriter → http.ResponseWriter) :
  agent.frames (agent.on_writer f).
Proof. by intros s w. Qed.

Lemma frames_log (f : log.Logger → log.Logger) :
  agent.frames (agent.on_agent (λ s, agent.set_log (f (agent.log s)) s)).
Proof. by intros s w. Qed.

Lemma frames_Prices (ps : list Pair) :
  agent.frames (agent.priceProvider_Prices ps).
Proof.
  intros s w. unfold agent.priceProvider_Prices.
  by destruct (Provider_Prices ps (agent.priceProvider s)).
Qed.

Lemma frames_Check (m : gmap Pair Price) :
  agent.frames (agent.priceHook_Check m).
Proof.
  intros s w. unfold agent.priceHook_Check.
  by destruct (Hook_Check m (agent.priceHook s)).
Qed.

Lemma frames_Write (i : marshal.Item) :
  agent.frames (agent.marshaller_Write i).
Proof.
  intros s w. unfold agent.marshaller_Write.
  by destruct (Marshaller_Write i (agent.marshaller s)) as [[? ?] ?].
Qed.

Lemma frames_Flush : agent.frames agent.marshaller_Flush.
Proof.
  intros s w. unfold agent.marshaller_Flush.
  by destruct (Marshaller_Flush (agent.marshaller s)) as [[? ?] ?].
Qed.

Ltac frames_step :=
  first
    [ apply frames_bind; [|intros ?]
    | apply frames_ret
    | apply frames_return
    | apply frames_on_writer
    | apply frames_log
    | apply frames_Prices
    | apply frames_Check
    | apply frames_Write
    | apply frames_Flush
    | match goal with
      | |- agent.frames (match ?x with _ => _ end) => destruct x
      end ].

Lemma frames_range_prices (l : list (Pair * Price)) :
  agent.frames (agent.range_prices l).
Proof.
  induction l as [|[pr p] rest IH]; simpl; [apply frames_ret|].
  repeat frames_step. done.
Qed.

(** Serving a request leaves the lifecycle fields of the agent alone. *)
Lemma serve_frame (h : agent.HandlerFunc) (r : http.Request)
    (s : agent.HTTPAgent) :
  agent.ctx (agent.serve h r s).1 = agent.ctx s ∧
  agent.waitCh (agent.serve h r s).1 = agent.waitCh s ∧
  agent.server (agent.serve h r s).1 = agent.server s.
Proof.
  enough (agent.frames (agent.handler h r)) as Hf
    by apply (Hf s http.newResponse).
  destruct h; simpl; unfold agent.handlePrices, agent.handlePrice,
    agent.io_WriteString, agent.http_Error, agent.log_Errorf,
    agent.log_Infof;
    repeat first [apply frames_range_prices | frames_step].
Qed.

Lemma server_returned_frame (err : error) (s : agent.HTTPAgent) :
  agent.ctx (agent.server_returned err s) = agent.ctx s ∧
  agent.waitCh (agent.server_returned err s) = agent.waitCh s ∧
  agent.server (agent.server_returned err s) = agent.server s.
Proof. unfold agent.server_returned. by destruct (decide _). Qed.

(** A context once stored stays stored, whatever the process does. *)
Lemma agent_step_started (l : agent.Label) (p p' : agent.Process) :
  agent.step l p = Some p' →
  is_Some (agent.ctx (agent.self p)) →
  agent.ctx (agent.self p') = agent.ctx (agent.self p).
Proof.
  unfold agent.step. destruct (agent.panicked p); [done|].
  destruct l as [c|c|i e|i e|path r|].
  - intros [= <-] [c0 Hc]. unfold agent.Start. by rewrite Hc.
  - by intros [= <-].
  - unfold agent.serve_exit.
    destruct (agent.goroutines p !! i) as [[]|]; try done;
      destruct (http.shut _); try destruct e; try done;
      intros [= <-] _; simpl;
      by rewrite ?(proj1 (server_returned_frame _ _)).
  - destruct (agent.done p); [|done].
    destruct (agent.goroutines p !! i) as [[]|]; try done.
    simpl. destruct (chan.closed _); by intros [= <-].
  - destruct (agent.listening p); [|done].
    destruct (agent.route path (agent.mux p)) as [h|]; [|by intros [= <-]].
    destruct (agent.serve h r (agent.self p)) as [s w] eqn:Hs.
    intros [= <-] _. simpl.
    destruct (serve_frame h r (agent.self p)) as [Hc _]. by rewrite Hs in Hc.
  - destruct (chan.closed _); [by intros [= <-]|].
    destruct (agent.sender (agent.goroutines p)) as [[i v]|]; [|done].
    unfold agent.contextCancelHandler_sent, chan.close. simpl.
    destruct (chan.closed _); by intros [= <-].
Qed.

Lemma agent_run_started (ls : list agent.Label) (p p' : agent.Process) :
  agent.run ls p = Some p' →
  is_Some (agent.ctx (agent.self p)) →
  agent.ctx (agent.self p') = agent.ctx (agent.self p).
Proof.
  revert p. induction ls as [|l ls IH]; intros p; simpl.
  - by intros [= <-].
  - destruct (agent.step l p) as [p1|] eqn:Hs; [|done]. intros Hr Hsome.
    pose proof (agent_step_started _ _ _ Hs Hsome) as Hst.
    rewrite <- Hst. apply IH; [done|]. by rewrite Hst.
Qed.






End AgentLifecycle.

(** * The lifecycle contract *)

Section ServiceFacts.
Context `{Provider} `{PriceHook} `{marshal.Marshaller} `{agent.JSON}.

(** A schedule of a component is a schedule of its own process. *)
Lemma service_run_cache (es : list service.Event) (p : prices.Process)
    (x : service.Component) :
  service.run es (service.TheCache p) = Some x →
  ∃ ls p', x = service.TheCache p' ∧ prices.run ls p = Some p'.
Proof.
  revert p. induction es as [|e es IH]; intros p; simpl.
  - intros [= <-]. by exists [], p.
  - destruct e as [l|l]; simpl; [|done].
    destruct (prices.step l p) as [p1|] eqn:Hs; simpl; [|done].
    intros Hr. destruct (IH _ Hr) as (ls & p' & -> & Hrun).
    exists (l :: ls), p'. simpl. by rewrite Hs.
Qed.

Lemma service_run_agent (es : list service.Event) (p : agent.Process)
    (x : service.Component) :
  service.run es (service.TheAgent p) = Some x →
  ∃ ls p', x = service.TheAgent p' ∧ agent.run ls p = Some p'.
Proof.
  revert p. induction es as [|e es IH]; intros p; simpl.
  - intros [= <-]. by exists [], p.
  - destruct e as [l|l]; simpl; [done|].
    destruct (agent.step l p) as [p1|] eqn:Hs; simpl; [|done].
    intros Hr. destruct (IH _ Hr) as (ls & p' & -> & Hrun).
    exists (l :: ls), p'. simpl. by rewrite Hs.
Qed.


Lemma agent_run_service (ls : list agent.Label) (p p' : agent.Process) :
  agent.run ls p = Some p' →
  service.run (service.AgentEvent <$> ls) (service.TheAgent p)
    = Some (service.TheAgent p').
Proof.
  revert p. induction ls as [|l ls IH]; intros p; simpl.
  - by intros [= <-].
  - destruct (agent.step l p) as [p1|]; simpl; [|done]. apply IH.
Qed.

(** A call of [Start] that returned [nil] has stored its context. *)
Lemma Start_ok_started (x x' : service.Component) (c : option Context) :
  service.Start c x = (x', Returned None) →
  service.started x = None ∧ service.started x' = c ∧ is_Some c.
Proof.
  destruct x as [p|p]; simpl.
  - unfold prices.Start. destruct (prices.ctx (prices.self p)); [done|].
    destruct c; [|done]. simpl. intros [= <-]. simpl. eauto.
  - unfold agent.Start. destruct (agent.ctx (agent.self p)); [done|].
    destruct c; [|done]. unfold agent.initServer. simpl.
    destruct (agent.HandleFunc "/" agent.HandlePrices (agent.mux p) ≫= _);
      [|done].
    simpl. intros [= <-]. simpl. eauto.
Qed.

(** A started component refuses [Start] and stays as it is. *)
Lemma Start_again (x : service.Component) (c : option Context) :
  is_Some (service.started x) →
  service.Start c x =
    (x, Returned (Some "service can be started only once")).
Proof.
  intros [c0 Hc]. destruct x as [p|p]; simpl in *.
  - unfold prices.Start. by rewrite Hc.
  - unfold agent.Start. by rewrite Hc.
Qed.

(** The stored context survives every schedule. *)
Lemma run_started (es : list service.Event) (x x' : service.Component) :
  service.run es x = Some x' →
  is_Some (service.started x) →
  service.started x' = service.started x.
Proof.
  destruct x as [p|p]; intros Hr Hs.
  - destruct (service_run_cache _ _ _ Hr) as (ls & p' & -> & Hrun).
    by apply (cache_run_frame _ _ _ Hrun).
  - destruct (service_run_agent _ _ _ Hr) as (ls & p' & -> & Hrun).
    by apply (agent_run_started _ _ _ Hrun).
Qed.

(** C1. Once a call of [Start] with a context has returned [nil] on a
    component (the cache or the agent), every later call of [Start],
    after whatever the process did in between and with any context or
    [nil], returns the error [service can be started only once] and
    gives back the component as it was: the same stored context, the
    same completion channel, no goroutine more. *)
Theorem C1_start_succeeds_at_most_once
    (x x' x'' : service.Component) (c : Context)
    (es : list service.Event) (c' : option Context) :
  service.Start (Some c) x = (x', Returned None) →
  service.run es x' = Some x'' →
  service.Start c' x'' =
    (x'', Returned (Some "service can be started only once")) ∧
  service.started (service.Start c' x'').1 = Some c ∧
  service.Wait (service.Start c' x'').1 = service.Wait x'' ∧
  service.spawned (service.Start c' x'').1 = service.spawned x''.
Proof.
  intros Hstart Hrun.
  destruct (Start_ok_started _ _ _ Hstart) as (_ & Hs & _).
  assert (service.started x'' = Some c) as Hs''.
  { rewrite <- Hs. apply (run_started es); [done|]. by rewrite Hs. }
  rewrite Start_again by (by rewrite Hs''). done.
Qed.



(** C10. Whatever a cache built by [New] does after that, and however
    many fetches fail, no value is ever sent on its completion
    channel, and every receive that a waiter has completed got [nil]
    (with [ok = false], from the closed channel). *)
Theorem C10_cache_wait_yields_only_nil
    (cfg : prices.Config) (g : prices.Cache)
    (ls : list prices.Label) (p : prices.Process) :
  prices.New cfg = Ok g →
  prices.run ls (prices.boot g) = Some p →
  chan.sent (prices.Wait (prices.self p)) = [] ∧
  Forall (λ r, r = (None, false)) (prices.received p).
Proof.
  intros Hnew Hrun.
  destruct (cache_run_frame _ _ _ Hrun) as (_ & Hsent & _ & Hrecv).
  unfold prices.Wait. rewrite Hsent. split; [|by apply Hrecv].
  unfold prices.New in Hnew.
  destruct (prices.PriceProvider cfg); [|done].
  destruct (NewPairs (prices.Pairs cfg)); [|done].
  by injection Hnew as <-.
Qed.

End ServiceFacts.

(** An option that is [Some] is [Some] of its value. *)
Lemma Some_default {A : Type} (o : option A) (d : A) :
  (if o is Some _ then true else false) = true → o = Some (default d o).
Proof. by destruct o. Qed.

(** The sample runs do run. *)
Lemma sample_agent_started :
  service.Start (Some 7) (service.TheAgent (agent.boot sample.agent)) =
    (service.TheAgent sample.agent_started, Returned None).
Proof. reflexivity. Qed.

Lemma sample_agent_cancelled :
  service.run
    [service.AgentEvent (agent.LServe 0 None);
     service.AgentEvent (agent.LRequest "/price" (sample.json_request "btc"));
     service.AgentEvent (agent.LCancel 7)]
    (service.TheAgent sample.agent_started) =
    Some (service.TheAgent sample.agent_cancelled).
Proof.
  apply (agent_run_service
           [agent.LServe 0 None;
            agent.LRequest "/price" (sample.json_request "btc");
            agent.LCancel 7]).
  apply Some_default. vm_compute. reflexivity.
Qed.




(** C1 on the sample agent: started with context 7, then some steps,
    then [Start] again with context 8. *)
Lemma C1_witness :
  service.Start (Some 7) (service.TheAgent (agent.boot sample.agent)) =
    (service.TheAgent sample.agent_started, Returned None) ∧
  service.run
    [service.AgentEvent (agent.LServe 0 None);
     service.AgentEvent (agent.LRequest "/price" (sample.json_request "btc"));
     service.AgentEvent (agent.LCancel 7)]
    (service.TheAgent sample.agent_started) =
    Some (service.TheAgent sample.agent_cancelled) ∧
  service.Start (Some 8) (service.TheAgent sample.agent_cancelled) =
    (service.TheAgent sample.agent_cancelled,
     Returned (Some "service can be started only once")) ∧
  service.started
    (service.Start (Some 8) (service.TheAgent sample.agent_cancelled)).1
    = Some 7 ∧
  service.Wait
    (service.Start (Some 8) (service.TheAgent sample.agent_cancelled)).1
    = service.Wait (service.TheAgent sample.agent_cancelled) ∧
  service.spawned
    (service.Start (Some 8) (service.TheAgent sample.agent_cancelled)).1
    = service.spawned (service.TheAgent sample.agent_cancelled).
Proof.
  split; [exact sample_agent_started|].
  split; [exact sample_agent_cancelled|].
  exact (C1_start_succeeds_at_most_once
           (service.TheAgent (agent.boot sample.agent))
           (service.TheAgent sample.agent_started)
           (service.TheAgent sample.agent_cancelled) 7
           [service.AgentEvent (agent.LServe 0 None);
            service.AgentEvent
              (agent.LRequest "/price" (sample.json_request "btc"));
            service.AgentEvent (agent.LCancel 7)]
           (Some 8) sample_agent_started sample_agent_cancelled).
Defined.






(** C10 on the sample cache, built by [New] from the sample
    configuration. *)
Lemma C10_witness :
  prices.New sample.config = Ok sample.cache ∧
  chan.sent
    (prices.Wait
       (prices.self
          (default (prices.boot sample.cache)
             (prices.run
                [prices.LStart (Some 1); prices.LTick 0; prices.LCancel 1;
                 prices.LDone 1; prices.LRecv] (prices.boot sample.cache)))))
    = [] ∧
  Forall (λ r, r = (None, false))
    (prices.received
       (default (prices.boot sample.cache)
          (prices.run
             [prices.LStart (Some 1); prices.LTick 0; prices.LCancel 1;
              prices.LDone 1; prices.LRecv] (prices.boot sample.cache)))).
Proof.
  split; [reflexivity|].
  apply (C10_cache_wait_yields_only_nil sample.config sample.cache
           [prices.LStart (Some 1); prices.LTick 0; prices.LCancel 1;
            prices.LDone 1; prices.LRecv]).
  - reflexivity.
  - apply Some_default. vm_compute. reflexivity.
Defined.

(** C2 fails on the code: the sample cache fetches BTC/USD with
    success on its first tick (the provider returns a tick without an
    error marker, and the cycle logs an update for it), and the
    snapshot map of the cache still has no entry for BTC/USD: it is
    the [nil] map that [New] left. *)
Theorem C2_snapshot_is_never_written :
  ∃ p,
    prices.run [prices.LStart (Some 1); prices.LTick 0]
      (prices.boot sample.cache) = Some p ∧
    pcalls (prices.priceProvider (prices.self p)) !! 0 =
      Some (CallPrice sample.BTCUSD (Ok (sample.tick sample.BTCUSD ""))) ∧
    prices.fetch_failure (Ok (sample.tick sample.BTCUSD "")) = None ∧
    prices.prices (prices.self p) = None ∧
    prices.snapshot (prices.self p) sample.BTCUSD = None.
Proof.
  exists (default (prices.boot sample.cache)
            (prices.run [prices.LStart (Some 1); prices.LTick 0]
               (prices.boot sample.cache))).
  split; [apply Some_default; vm_compute; reflexivity|].
  repeat split; vm_compute; reflexivity.
Qed.
